(** * The rustdoc artifacts of the [martian] crate

    Two generated files are modelled:

    - [doc/implementors/serde/ser/trait.Serialize.js], a script that
      builds the table of [Serialize] implementors and hands it to the
      documentation page through [window];
    - the sidebar index of the [martian::mro] module, a single call
      [initSidebarItems({...})].

    The object literals become typed tables, [window] becomes a finite
    map from property names to JavaScript values, and running a script
    is a function from the window before to the events the script
    performs and the completion it ends with. *)

From Stdlib Require Import ZArith Ascii String.
From stdpp Require Import gmap strings list fin_maps.

Local Open Scope string_scope.

(** ** Text helpers *)

(** The double-quote character, which the literals of both files
    contain in escaped form. *)
Definition dq : string := String "034"%char EmptyString.

Definition attr (name val : string) : string :=
  " " +:+ name +:+ "=" +:+ dq +:+ val +:+ dq.

(** [<a class="cls" href="href" title="title">label</a>] *)
Definition anchor (cls href title label : string) : string :=
  "<a" +:+ attr "class" cls +:+ attr "href" href +:+ attr "title" title
       +:+ ">" +:+ label +:+ "</a>".

Definition nbsp : string := "&nbsp;".

(** Sum of the character codes, used to fingerprint a literal. *)
Fixpoint code_sum (s : string) : N :=
  match s with
  | EmptyString => 0%N
  | String c r => (N_of_ascii c + code_sum r)%N
  end.

Definition fingerprint (s : string) : N * N :=
  (N.of_nat (String.length s), code_sum s).

(** ** The implementors table *)

Module Implementors.

(** One element of a crate's array: [{text: .., synthetic: .., types: [..]}]. *)
Record implementor := Implementor {
  text : string;
  synthetic : bool;
  types : list string
}.

Definition Serialize_link : string :=
  anchor "trait" "serde/ser/trait.Serialize.html"
         "trait serde::ser::Serialize" "Serialize".

Definition impl_MartianVoid : implementor :=
  {| text := "impl " +:+ Serialize_link +:+ " for " +:+
       anchor "struct" "martian/types/struct.MartianVoid.html"
              "struct martian::types::MartianVoid" "MartianVoid";
     synthetic := false;
     types := ["martian::types::MartianVoid"] |}.

Definition impl_Resource : implementor :=
  {| text := "impl " +:+ Serialize_link +:+ " for " +:+
       anchor "struct" "martian/struct.Resource.html"
              "struct martian::Resource" "Resource";
     synthetic := false;
     types := ["martian::stage::Resource"] |}.

Definition impl_StageDef : implementor :=
  {| text := "impl&lt;T&gt; " +:+ Serialize_link +:+ " for " +:+
       anchor "struct" "martian/struct.StageDef.html"
              "struct martian::StageDef" "StageDef" +:+
       "&lt;T&gt; <span class=" +:+ dq +:+ "where fmt-newline" +:+ dq +:+
       ">where<br>" +:+ nbsp +:+ nbsp +:+ nbsp +:+ nbsp +:+
       "T: " +:+ Serialize_link +:+ "," +:+ nbsp +:+ "</span>";
     synthetic := false;
     types := ["martian::stage::StageDef"] |}.

Definition impl_MartianPrimaryType : implementor :=
  {| text := "impl " +:+ Serialize_link +:+ " for " +:+
       anchor "enum" "martian/mro/enum.MartianPrimaryType.html"
              "enum martian::mro::MartianPrimaryType" "MartianPrimaryType";
     synthetic := false;
     types := ["martian::mro::MartianPrimaryType"] |}.

Definition impl_MartianBlanketType : implementor :=
  {| text := "impl " +:+ Serialize_link +:+ " for " +:+
       anchor "enum" "martian/mro/enum.MartianBlanketType.html"
              "enum martian::mro::MartianBlanketType" "MartianBlanketType";
     synthetic := false;
     types := ["martian::mro::MartianBlanketType"] |}.

Definition impl_MroField : implementor :=
  {| text := "impl " +:+ Serialize_link +:+ " for " +:+
       anchor "struct" "martian/mro/struct.MroField.html"
              "struct martian::mro::MroField" "MroField";
     synthetic := false;
     types := ["martian::mro::MroField"] |}.

Definition impl_Volatile : implementor :=
  {| text := "impl " +:+ Serialize_link +:+ " for " +:+
       anchor "enum" "martian/mro/enum.Volatile.html"
              "enum martian::mro::Volatile" "Volatile";
     synthetic := false;
     types := ["martian::mro::Volatile"] |}.

Definition impl_MroUsing : implementor :=
  {| text := "impl " +:+ Serialize_link +:+ " for " +:+
       anchor "struct" "martian/mro/struct.MroUsing.html"
              "struct martian::mro::MroUsing" "MroUsing";
     synthetic := false;
     types := ["martian::mro::MroUsing"] |}.

Definition impl_Map : implementor :=
  {| text := "impl " +:+ Serialize_link +:+ " for " +:+
       anchor "struct" "serde_json/map/struct.Map.html"
              "struct serde_json::map::Map" "Map" +:+
       "&lt;" +:+
       anchor "struct"
              "https://doc.rust-lang.org/nightly/alloc/string/struct.String.html"
              "struct alloc::string::String" "String" +:+
       ", " +:+
       anchor "enum" "serde_json/value/enum.Value.html"
              "enum serde_json::value::Value" "Value" +:+
       "&gt;";
     synthetic := false;
     types := ["serde_json::map::Map"] |}.

Definition impl_Value : implementor :=
  {| text := "impl " +:+ Serialize_link +:+ " for " +:+
       anchor "enum" "serde_json/value/enum.Value.html"
              "enum serde_json::value::Value" "Value";
     synthetic := false;
     types := ["serde_json::value::Value"] |}.

Definition impl_Number : implementor :=
  {| text := "impl " +:+ Serialize_link +:+ " for " +:+
       anchor "struct" "serde_json/struct.Number.html"
              "struct serde_json::Number" "Number";
     synthetic := false;
     types := ["serde_json::number::Number"] |}.

(** [implementors["martian"] = [...]] *)
Definition martian_list : list implementor :=
  [ impl_MartianVoid; impl_Resource; impl_StageDef; impl_MartianPrimaryType;
    impl_MartianBlanketType; impl_MroField; impl_Volatile; impl_MroUsing ].

(** [implementors["serde_json"] = [...]] *)
Definition serde_json_list : list implementor :=
  [ impl_Map; impl_Value; impl_Number ].

(** [var implementors = {}] followed by the two assignments, in the
    order of the script. *)
Definition implementors : gmap string (list implementor) :=
  <["serde_json" := serde_json_list]> (<["martian" := martian_list]> ∅).

End Implementors.

(** ** The sidebar index *)

Module Sidebar.

(** Every record of the literal is a JavaScript array of strings. *)
Definition sidebar_constant : list (list string) :=
  [ ["MARTIAN_TOKENS";
     EmptyString] ].

Definition sidebar_enum : list (list string) :=
  [ ["MartianBlanketType";
     "Primary Data type + Arrays (which are derived from primary types)"];
    ["MartianPrimaryType";
     "Primary data types in Martian world"];
    ["Volatile";
     EmptyString] ].

Definition sidebar_struct : list (list string) :=
  [ ["FiletypeHeader";
     "The list of filetypes we list at the top of the mro A simple wrapper around a HashSet of all file extensions."];
    ["InAndOut";
     "Input and outputs together"];
    ["MroField";
     "Each variable that is listed in the mro along with it's type form a `MroField`. For example, the following stage: `mro stage SORT_ITEMS(     in  int[] unsorted,     in  bool  reverse,     out int[] sorted,     src comp  " +:+ dq +:+ "my_stage martian sort_items" +:+ dq +:+ ", ) ` contains 3 `MroFields` - MroField { name: unsorted, ty: MartianBlanketType::Array(MartianPrimaryType::Int)} - MroField { name: reverse, ty: MartianBlanketType::Primary(MartianPrimaryType::Bool)} - MroField { name: sorted, ty: MartianBlanketType::Array(MartianPrimaryType::Int)}"];
    ["MroUsing";
     "Stuff that comes in the `using` section of a stage definition For example: `mro using (     mem_gb  = 4,     threads = 16, ) `"];
    ["StageMro";
     "All the data needed to create a stage definition mro. TODO: Retain"] ].

Definition sidebar_trait : list (list string) :=
  [ ["AsMartianBlanketType";
     "A trait that defines how to convert this Rust type into an `MartianBlanketType`. Not all rust types can be converted to an `MartianBlanketType`. Not defined for - Unit, the type of () in Rust. - Unit Struct For example `struct Unit` or `PhantomData<T>`. It represents     a named value containing no data. Any type which implements `AsMartianPrimaryType` also implements `AsMartianBlanketType` It is stringly recommended not to extend any types with this trait, instead use the `AsMartianPrimaryType` trait."];
    ["AsMartianPrimaryType";
     "A trait that tells you how to convert a Rust data type to a basic Martian type."];
    ["MartianStruct";
     "A trait that defines how to expand a struct into a list of `MroField`s The `MartianStage` and `MartianMain` traits already has independent associated types for stage/chunk inputs and outputs. If those associated types implement this trait, then we can readily generate all the mro variables with the appropriate type and put them at the right place (withing stage def or chunk def)."];
    ["MroDisplay";
     "Defines how an entity that denotes some part of the mro is displayed"];
    ["MroMaker";
     "Can be auto generated using proc macro attribute #[make_mro] on MartianMain or MartianStage implementations if the associated types implement `MartianStruct`"] ].

(** The argument of [initSidebarItems]: an object whose keys are the
    category tags. *)
Definition sidebar_items : gmap string (list (list string)) :=
  <["trait" := sidebar_trait]>
    (<["struct" := sidebar_struct]>
      (<["enum" := sidebar_enum]>
        (<["constant" := sidebar_constant]> ∅))).

End Sidebar.

(** ** Reading an implementation header

    The [text] of an entry is the HTML rustdoc prints for the header
    [impl<G..> Trait for Type<A..> where X: Bound, ..]. The functions
    below read the parts of that header back from the string. *)

Module Header.

(** The part of [s] after, respectively before, the first occurrence of
    [pat]. *)
Definition after (pat s : string) : option string :=
  i ← String.index 0 pat s;
  Some (String.substring (i + String.length pat) (String.length s) s).

Definition before (pat s : string) : option string :=
  i ← String.index 0 pat s;
  Some (String.substring 0 i s).

Definition drop_chars (n : nat) (s : string) : string :=
  String.substring n (String.length s) s.

Fixpoint split_on_fuel (fuel : nat) (sep s : string) : list string :=
  match fuel with
  | 0 => [s]
  | S k =>
      match String.index 0 sep s with
      | None => [s]
      | Some i =>
          String.substring 0 i s
            :: split_on_fuel k sep (drop_chars (i + String.length sep) s)
      end
  end.

Definition split_on (sep s : string) : list string :=
  split_on_fuel (String.length s) sep s.

Fixpoint strip_leading_fuel (fuel : nat) (p s : string) : string :=
  match fuel with
  | 0 => s
  | S k =>
      if String.prefix p s
      then strip_leading_fuel k p (drop_chars (String.length p) s)
      else s
  end.

Definition strip_leading (p s : string) : string :=
  strip_leading_fuel (String.length s) p s.

(** The path in the [title="trait path"] attribute of the first trait
    link of [s]. *)
Definition trait_title (s : string) : option string :=
  t ← after ("title=" +:+ dq +:+ "trait ") s;
  before dq t.

Record impl_header := ImplHeader {
  generics : list string;          (* the parameters of [impl<..>] *)
  trait_ : string;                 (* the trait being implemented *)
  self_name : string;              (* the name printed for the implementing type *)
  self_args : list string;         (* the arguments of [Type<..>], as printed *)
  bounds : list (string * string)  (* the predicates [X: Trait] of the where clause *)
}.

Definition read_generics (s : string) : option (list string * string) :=
  if String.prefix "&lt;" s
  then g ← before "&gt;" (drop_chars 4 s);
       r ← after "&gt;" s;
       Some (split_on ", " g, r)
  else Some ([], s).

Definition read_self_name (for_type : string) : option string :=
  r ← after (dq +:+ ">") for_type;
  before "</a>" r.

Definition read_self_args (for_type : string) : option (list string) :=
  r ← after "</a>" for_type;
  if String.prefix "&lt;" r
  then a ← before "&gt;" (drop_chars 4 r); Some (split_on ", " a)
  else Some [].

Definition read_bound (item : string) : option (string * string) :=
  let it := strip_leading nbsp item in
  x ← before ": " it;
  tr ← trait_title it;
  Some (x, tr).

Definition read_bounds (for_type : string) : option (list (string * string)) :=
  match after "where<br>" for_type with
  | None => Some []
  | Some w =>
      body ← before ("," +:+ nbsp +:+ "</span>") w;
      mapM read_bound (split_on ",<br>" body)
  end.

Definition read_header (text : string) : option impl_header :=
  if String.prefix "impl" text
  then '(gs, r) ← read_generics (drop_chars 4 text);
       head ← before " for " r;
       for_type ← after " for " r;
       tr ← trait_title head;
       name ← read_self_name for_type;
       args ← read_self_args for_type;
       bs ← read_bounds for_type;
       Some (ImplHeader gs tr name args bs)
  else None.

(** The trait an entry names as the one being implemented. *)
Definition implemented_trait (e : Implementors.implementor) : option string :=
  trait_ <$> read_header (Implementors.text e).

End Header.

(** ** Which types the table gives an implementation

    A Rust type is a path applied to type arguments. The [martian] list
    of the table records every [Serialize] implementation of the crate,
    so for a type of that crate the list decides the question; for a
    type of any other crate the answer is taken from [foreign]. *)

Module Resolution.

Import Implementors Header.

#[warnings="-register-all"]
Inductive ty := Ty (path : string) (args : list ty).

Definition Serialize_path : string := "serde::ser::Serialize".

Definition crate_of (path : string) : string :=
  default path (before "::" path).

(** [xs] are the parameters the header prints as arguments of the
    implementing type, [sargs] says for each actual argument whether it
    implements [Serialize]. The predicate [x: Trait] holds when the
    trait is [Serialize] and the argument standing for [x] has it. *)
Definition bound_holds (xs : list string) (sargs : list bool)
    (b : string * string) : bool :=
  bool_decide (b.2 = Serialize_path) &&
  bool_decide (b.1 ∈ xs) &&
  forallb (λ xa : string * bool, implb (String.eqb xa.1 b.1) xa.2)
          (zip xs sargs).

(** Entry [e] is an implementation for the type [path<args>]. *)
Definition entry_covers (path : string) (sargs : list bool)
    (e : implementor) : bool :=
  match read_header (text e) with
  | None => false
  | Some h =>
      bool_decide (trait_ h = Serialize_path) &&
      bool_decide (path ∈ types e) &&
      bool_decide (length (self_args h) = length sargs) &&
      forallb (λ a, bool_decide (a ∈ generics h)) (self_args h) &&
      forallb (bound_holds (self_args h) sargs) (bounds h)
  end.

Section Implements.
Variable foreign : ty → bool.

Fixpoint implements (t : ty) : bool :=
  match t with
  | Ty path args =>
      if String.eqb (crate_of path) "martian"
      then existsb (entry_covers path (map implements args)) martian_list
      else foreign t
  end.

End Implements.

Definition StageDef (T : ty) : ty := Ty "martian::stage::StageDef" [T].

End Resolution.

(** ** Running the scripts *)

Module JS.

Import Implementors Sidebar.

(** Numbers matter only through [ToBoolean]; the integral ones and NaN
    are kept. *)
Inductive number := NaN | Num (z : Z).

Inductive value :=
  | VUndefined
  | VNull
  | VBool (b : bool)
  | VNumber (n : number)
  | VString (s : string)
  | VFunction (f : nat)      (* a function object of the page *)
  | VObject (o : nat)        (* any other object of the page *)
  | VImplementors (t : gmap string (list implementor))
  | VSidebar (t : gmap string (list (list string))).

(** ECMAScript [ToBoolean], the test an [if] performs. *)
Definition to_boolean (v : value) : bool :=
  match v with
  | VUndefined | VNull => false
  | VBool b => b
  | VNumber NaN => false
  | VNumber (Num z) => negb (z =? 0)%Z
  | VString EmptyString => false
  | VString (String _ _) => true
  | VFunction _ | VObject _ | VImplementors _ | VSidebar _ => true
  end.

(** The global object: its properties by name. *)
Abbreviation window := (gmap string value).

(** [window.p]: a missing property reads as [undefined]. *)
Definition get (w : window) (p : string) : value :=
  default VUndefined (w !! p).

Inductive error := TypeError | ReferenceError | Thrown (v : value).

(** How a script or a function of the page ends, and the window it
    leaves. *)
Inductive completion :=
  | Normal (w : window)
  | Throw (e : error) (w : window).

(** What a script itself does to the page. *)
Inductive event :=
  | Call (f : nat) (args : list value)
  | Assign (p : string) (v : value).

Definition final_window (c : completion) : window :=
  match c with Normal w | Throw _ w => w end.



Section Scripts.
(** The functions of the page: what calling function object [f] with
    [args] does to the window. *)
Variable host : nat → list value → window → completion.

(** [trait.Serialize.js]:
<<
    if (window.register_implementors) {
        window.register_implementors(implementors);
    } else {
        window.pending_implementors = implementors;
    }
>> *)
Definition implementors_script (w : window) : list event * completion :=
  let f := get w "register_implementors" in
  if to_boolean f then
    match f with
    | VFunction fn =>
        ([Call fn [VImplementors implementors]],
         host fn [VImplementors implementors] w)
    | _ => ([], Throw TypeError w)
    end
  else
    ([Assign "pending_implementors" (VImplementors implementors)],
     Normal (<["pending_implementors" := VImplementors implementors]> w)).

(** The sidebar file: [initSidebarItems({...});]. The identifier is
    resolved on the global object. *)
Definition sidebar_script (w : window) : list event * completion :=
  match w !! "initSidebarItems" with
  | None => ([], Throw ReferenceError w)
  | Some (VFunction fn) =>
      ([Call fn [VSidebar sidebar_items]],
       host fn [VSidebar sidebar_items] w)
  | Some _ => ([], Throw TypeError w)
  end.

End Scripts.

(** A page whose functions do nothing. *)
Definition idle : nat → list value → window → completion :=
  λ _ _ w, Normal w.

End JS.

(** ** Reading the tables as a whole *)

Module Index.

Import Implementors Sidebar Header Resolution.

(** The entries of the implementors table, crate by crate. *)
Definition all_entries : list implementor :=
  concat (snd <$> map_to_list implementors).

(** The last segment of a [::]-separated path. *)
Definition last_segment (path : string) : string :=
  default path (last (split_on "::" path)).

(** The module part of a path: everything before its last [::]. *)
Definition module_of (path : string) : string :=
  String.substring 0
    (String.length path - String.length (last_segment path) - 2) path.

(** The [class] of the link to the implementing type: [struct] or
    [enum]. *)
Definition read_self_kind (text : string) : option string :=
  for_type ← after " for " text;
  k ← after ("<a class=" +:+ dq) for_type;
  before dq k.

(** The item names of a category of the sidebar index, in the order of
    the file. *)
Definition names (rs : list (list string)) : list string :=
  (λ r, default EmptyString (head r)) <$> rs.

(** The names of the whole index. *)
Definition all_names : list string :=
  concat ((λ kv, names kv.2) <$> map_to_list sidebar_items).

Fixpoint strictly_sorted (l : list string) : bool :=
  match l with
  | [] => true
  | x :: r =>
      match r with
      | [] => true
      | y :: _ => String.ltb x y && strictly_sorted r
      end
  end.

End Index.

(** ** Global bindings and property attributes

    Two things a page can do that a map of plain values does not show.
    A script of the page may declare a name with [let], [const] or
    [class] at its top level: such a name is no property of [window],
    and a bare identifier finds it first. And a property of [window]
    may be read-only or an accessor. *)

Module Global.

Import Sidebar JS.

(** The top-level lexical declarations of the page; [None] is a name
    declared but not yet initialised. *)
Abbreviation declarations := (gmap string (option value)).

(** What the bare identifier [x] is bound to, if anything: a lexical
    declaration first, then the property of the global object. *)
Definition binding (lexical : declarations) (w : window) (x : string)
    : option value :=
  match lexical !! x with
  | Some b => b
  | None => w !! x
  end.

Section File.

Variable host : nat → list value → window → completion.

(** The sidebar file, [initSidebarItems({...});], with the identifier
    resolved as the language does. *)
Definition sidebar_file (lexical : declarations) (w : window)
    : list event * completion :=
  match binding lexical w "initSidebarItems" with
  | None => ([], Throw ReferenceError w)
  | Some (VFunction fn) =>
      ([Call fn [VSidebar sidebar_items]],
       host fn [VSidebar sidebar_items] w)
  | Some _ => ([], Throw TypeError w)
  end.

End File.

End Global.

Module Page.

Import Implementors JS.

(** A property as reading and writing [window.p] find it. *)
Inductive property :=
  | Data (v : value) (writable : bool)
  | Accessor (getter setter : option nat).

Record page := MkPage {
  own : gmap string property;        (* the own properties of [window] *)
  inherited : gmap string property;  (* what its prototype chain adds *)
  extensible : bool                  (* whether new own properties can be added *)
}.

Inductive result (A : Type) :=
  | Return (a : A) (pg : page)
  | Raise (e : error) (pg : page).

Arguments Return {A} a pg.
Arguments Raise {A} e pg.

(** What the script itself does. *)
Inductive action :=
  | Read (p : string)
  | Write (p : string) (v : value)
  | Invoke (f : nat) (args : list value).

(** A computation on the page: the actions performed and the result. *)
Definition M (A : Type) : Type := page → list action * result A.

Definition ret {A : Type} (a : A) : M A := λ pg, ([], Return a pg).

Definition bind {A B : Type} (m : M A) (k : A → M B) : M B := λ pg,
  match m pg with
  | (tr, Return a pg1) =>
      match k a pg1 with (tr2, r) => ((tr ++ tr2)%list, r) end
  | (tr, Raise e pg1) => (tr, Raise e pg1)
  end.

Notation "'do' x <- m ; k" := (bind m (λ x, k))
  (at level 10, x name, m at level 100, k at level 200).

Definition find (pg : page) (p : string) : option property :=
  match own pg !! p with
  | Some d => Some d
  | None => inherited pg !! p
  end.

(** The page after [window.p = v] took effect as a data property. *)
Definition store (p : string) (v : value) (pg : page) : page :=
  {| own := <[p := Data v true]> (own pg);
     inherited := inherited pg;
     extensible := extensible pg |}.

(** Whether [window.p = v] takes effect as a data property: [p] is a
    writable own data property, or no own property at all on an
    extensible [window] whose prototype chain has nothing read-only and
    no accessor under that name. *)
Definition can_store (pg : page) (p : string) : bool :=
  match own pg !! p with
  | Some (Data _ w) => w
  | Some (Accessor _ _) => false
  | None =>
      match inherited pg !! p with
      | Some (Data _ w) => w && extensible pg
      | Some (Accessor _ _) => false
      | None => extensible pg
      end
  end.

(** The setter a write to [window.p] runs, if any. *)
Definition setter_of (pg : page) (p : string) : option nat :=
  match find pg p with
  | Some (Accessor _ s) => s
  | _ => None
  end.

(** The value [window.p] has without running page code: [None] for an
    accessor with a getter. *)
Definition plain_value (pg : page) (p : string) : option value :=
  match find pg p with
  | None => Some VUndefined
  | Some (Data v _) => Some v
  | Some (Accessor None _) => Some VUndefined
  | Some (Accessor (Some _) _) => None
  end.

Section Scripts.

(** The functions of the page, getters and setters included: the value
    returned or the error thrown, and the page left. *)
Variable host : nat → list value → page → result value.

Definition discard (r : result value) : result unit :=
  match r with
  | Return _ pg => Return tt pg
  | Raise e pg => Raise e pg
  end.

(** Reading [window.p]. *)
Definition get_prop (p : string) : M value := λ pg,
  ([Read p],
   match find pg p with
   | None => Return VUndefined pg
   | Some (Data v _) => Return v pg
   | Some (Accessor None _) => Return VUndefined pg
   | Some (Accessor (Some g) _) => host g [] pg
   end).

(** [window.p = v] in sloppy mode: a write that cannot take effect is
    dropped without an error. *)
Definition set_prop (p : string) (v : value) : M unit := λ pg,
  ([Write p v],
   match setter_of pg p with
   | Some f => discard (host f [v] pg)
   | None =>
       if can_store pg p then Return tt (store p v pg) else Return tt pg
   end).

(** Calling a value. *)
Definition call_value (f : value) (args : list value) : M value := λ pg,
  match f with
  | VFunction fn => ([Invoke fn args], host fn args pg)
  | _ => ([], Raise TypeError pg)
  end.

(** [trait.Serialize.js], lines 5 to 9: the condition reads the
    property, the call reads it again. *)
Definition implementors_file : M unit :=
  do v <- get_prop "register_implementors";
  if to_boolean v then
    do f <- get_prop "register_implementors";
    do _ <- call_value f [VImplementors implementors];
    ret tt
  else
    set_prop "pending_implementors" (VImplementors implementors).

End Scripts.

(** A window of plain values as a page: every property an own, writable
    data property. *)
Definition plain (w : window) : page :=
  {| own := (λ v, Data v true) <$> w; inherited := ∅; extensible := true |}.

(** Pages to try the file on: one whose [pending_implementors] holds a
    stale, writable value; one where it is read-only; one where it is
    an accessor; one whose [register_implementors] is not callable. *)
Definition stale_page : page :=
  {| own := {[ "pending_implementors" := Data (VString "stale") true ]};
     inherited := ∅; extensible := false |}.

Definition frozen_page : page :=
  {| own := {[ "pending_implementors" := Data (VString "stale") false ]};
     inherited := ∅; extensible := true |}.

Definition guarded_page : page :=
  {| own := {[ "pending_implementors" := Accessor None (Some 5) ]};
     inherited := ∅; extensible := true |}.

Definition element_page : page :=
  {| own := ∅;
     inherited := {[ "register_implementors" := Data (VObject 1) true ]};
     extensible := true |}.

(** Functions of the page that do nothing, and functions that all
    throw. *)
Definition idle_page : nat → list value → page → result value :=
  λ _ _ pg, Return VUndefined pg.

Definition failing_page : nat → list value → page → result value :=
  λ _ _ pg, Raise (Thrown (VString "refused")) pg.

End Page.

(** * Properties *)

Import Implementors Sidebar Header Resolution JS Index Global.

(** ** Transcription checks *)

(** Length and character-code sum of every [text] literal of the
    script, in the order of the file. *)
Example implementors_text_fingerprints :
  map (λ e, fingerprint (text e)) (martian_list ++ serde_json_list)
  = [ (235, 21754); (213, 19627); (418, 37726); (246, 22840);
      (246, 22735); (222, 20296); (216, 19714); (222, 20398);
      (464, 42412); (217, 19799); (213, 19598) ]%N.
Proof. vm_compute. reflexivity. Qed.

(** The same for the doc-comment strings of the sidebar index. *)
Example sidebar_doc_fingerprints :
  map (λ r, fingerprint (default EmptyString (r !! 1)))
      (sidebar_constant ++ sidebar_enum ++ sidebar_struct ++ sidebar_trait)
  = [ (0, 0); (65, 5993); (35, 3358); (0, 0);
      (109, 10014); (26, 2601); (532, 47344); (126, 10439); (66, 5885);
      (507, 46933); (79, 7222); (382, 35759); (68, 6405); (157, 15088) ]%N.
Proof. vm_compute. reflexivity. Qed.

(** ** The tables *)

Lemma implementors_lookup (crate : string) (l : list implementor) :
  implementors !! crate = Some l ↔
  (crate = "martian" ∧ l = martian_list) ∨
  (crate = "serde_json" ∧ l = serde_json_list).
Proof.
  unfold implementors.
  rewrite !lookup_insert_Some, lookup_empty. split.
  - intros [[<- <-] | [_ [[<- <-] | [_ ?]]]]; [by right | by left | done].
  - intros [[-> ->] | [-> ->]]; [right | left]; repeat split; auto; done.
Qed.

Lemma sidebar_items_lookup (tag : string) (rs : list (list string)) :
  sidebar_items !! tag = Some rs ↔
  (tag = "constant" ∧ rs = sidebar_constant) ∨
  (tag = "enum" ∧ rs = sidebar_enum) ∨
  (tag = "struct" ∧ rs = sidebar_struct) ∨
  (tag = "trait" ∧ rs = sidebar_trait).
Proof.
  unfold sidebar_items.
  rewrite !lookup_insert_Some, lookup_empty. split.
  - intros [[<- <-] | [_ [[<- <-] | [_ [[<- <-] | [_ [[<- <-] | [_ ?]]]]]]]];
      [ by do 3 right | by do 2 right; left | by right; left | by left | done ].
  - intros [[-> ->] | [[-> ->] | [[-> ->] | [-> ->]]]]; naive_solver.
Qed.

Lemma headers_of_martian_list :
  map (λ e, read_header (text e)) martian_list =
  [ Some (ImplHeader [] Serialize_path "MartianVoid" [] []);
    Some (ImplHeader [] Serialize_path "Resource" [] []);
    Some (ImplHeader ["T"] Serialize_path "StageDef" ["T"]
                     [("T", Serialize_path)]);
    Some (ImplHeader [] Serialize_path "MartianPrimaryType" [] []);
    Some (ImplHeader [] Serialize_path "MartianBlanketType" [] []);
    Some (ImplHeader [] Serialize_path "MroField" [] []);
    Some (ImplHeader [] Serialize_path "Volatile" [] []);
    Some (ImplHeader [] Serialize_path "MroUsing" [] []) ].
Proof. vm_compute. reflexivity. Qed.

(** C1: the [martian] list of the implementors table has exactly eight
    entries, one [Serialize] implementation for each of [MartianVoid],
    [Resource], the generic [StageDef<T>], [MartianPrimaryType],
    [MartianBlanketType], [MroField], [Volatile] and [MroUsing], and a
    type path has an entry exactly when it is one of these eight. *)
Theorem martian_Serialize_implementors :
  implementors !! "martian" = Some martian_list ∧
  length martian_list = 8 ∧
  mapM (λ e, (λ h, (trait_ h, self_name h, self_args h))
               <$> read_header (text e)) martian_list
  = Some [ (Serialize_path, "MartianVoid", []);
           (Serialize_path, "Resource", []);
           (Serialize_path, "StageDef", ["T"]);
           (Serialize_path, "MartianPrimaryType", []);
           (Serialize_path, "MartianBlanketType", []);
           (Serialize_path, "MroField", []);
           (Serialize_path, "Volatile", []);
           (Serialize_path, "MroUsing", []) ] ∧
  ∀ path : string,
    (∃ e, e ∈ martian_list ∧ path ∈ types e) ↔
    path ∈ [ "martian::types::MartianVoid"; "martian::stage::Resource";
             "martian::stage::StageDef"; "martian::mro::MartianPrimaryType";
             "martian::mro::MartianBlanketType"; "martian::mro::MroField";
             "martian::mro::Volatile"; "martian::mro::MroUsing" ].
Proof.
  split; [by apply implementors_lookup; left |].
  split; [reflexivity |].
  split; [vm_compute; reflexivity |].
  intros path. unfold martian_list. split.
  - intros (e & He & Hp).
    repeat (apply elem_of_cons in He as [-> | He]);
      [ .. | by apply elem_of_nil in He ];
      cbn [types] in Hp; apply list_elem_of_singleton in Hp as ->;
      set_solver.
  - intros Hp.
    repeat (apply elem_of_cons in Hp as [-> | Hp]);
      [ .. | by apply elem_of_nil in Hp ].
    + exists impl_MartianVoid. set_solver.
    + exists impl_Resource. set_solver.
    + exists impl_StageDef. set_solver.
    + exists impl_MartianPrimaryType. set_solver.
    + exists impl_MartianBlanketType. set_solver.
    + exists impl_MroField. set_solver.
    + exists impl_Volatile. set_solver.
    + exists impl_MroUsing. set_solver.
Qed.

(** C3: the table is about one trait: whatever the crate, every entry
    of its list names [serde::ser::Serialize] as the trait being
    implemented. *)
Theorem every_entry_implements_Serialize
    (crate : string) (l : list implementor) (e : implementor) :
  implementors !! crate = Some l →
  e ∈ l →
  implemented_trait e = Some "serde::ser::Serialize".
Proof.
  intros Hl He.
  apply implementors_lookup in Hl as [[-> ->] | [-> ->]].
  - unfold martian_list in He.
    repeat (apply elem_of_cons in He as [-> | He]);
      [ .. | by apply elem_of_nil in He ]; vm_compute; reflexivity.
  - unfold serde_json_list in He.
    repeat (apply elem_of_cons in He as [-> | He]);
      [ .. | by apply elem_of_nil in He ]; vm_compute; reflexivity.
Qed.

Lemma every_entry_implements_Serialize_witness :
  implementors !! "serde_json" = Some serde_json_list ∧
  impl_Map ∈ serde_json_list ∧
  implemented_trait impl_Map = Some "serde::ser::Serialize".
Proof.
  assert (Hl : implementors !! "serde_json" = Some serde_json_list)
    by (vm_compute; reflexivity).
  assert (He : impl_Map ∈ serde_json_list) by (left).
  split; [exact Hl |]. split; [exact He |].
  exact (every_entry_implements_Serialize
           "serde_json" serde_json_list impl_Map Hl He).
Defined.

(** C5: every record of the sidebar index is a pair of an item name and
    a doc-comment string, and the categories the records are filed
    under are exactly [constant], [enum], [struct] and [trait]. *)
Theorem sidebar_records_shape :
  dom sidebar_items = ({[ "constant"; "enum"; "struct"; "trait" ]} : gset string) ∧
  ∀ (tag : string) (rs : list (list string)) (r : list string),
    sidebar_items !! tag = Some rs →
    r ∈ rs →
    tag ∈ [ "constant"; "enum"; "struct"; "trait" ] ∧
    ∃ name doc : string, r = [name; doc].
Proof.
  split.
  - unfold sidebar_items. rewrite !dom_insert_L, dom_empty_L. set_solver.
  - intros tag rs r Hrs Hr.
    apply sidebar_items_lookup in Hrs
      as [[-> ->] | [[-> ->] | [[-> ->] | [-> ->]]]];
      (split; [repeat constructor |]).
    + unfold sidebar_constant in Hr.
      repeat (apply elem_of_cons in Hr as [-> | Hr]);
        [ .. | by apply elem_of_nil in Hr ]; eauto.
    + unfold sidebar_enum in Hr.
      repeat (apply elem_of_cons in Hr as [-> | Hr]);
        [ .. | by apply elem_of_nil in Hr ]; eauto.
    + unfold sidebar_struct in Hr.
      repeat (apply elem_of_cons in Hr as [-> | Hr]);
        [ .. | by apply elem_of_nil in Hr ]; eauto.
    + unfold sidebar_trait in Hr.
      repeat (apply elem_of_cons in Hr as [-> | Hr]);
        [ .. | by apply elem_of_nil in Hr ]; eauto.
Qed.

Lemma sidebar_records_shape_witness :
  sidebar_items !! "enum" = Some sidebar_enum ∧
  ["Volatile"; EmptyString] ∈ sidebar_enum ∧
  "enum" ∈ [ "constant"; "enum"; "struct"; "trait" ] ∧
  ∃ name doc : string, ["Volatile"; EmptyString] = [name; doc].
Proof.
  assert (Hrs : sidebar_items !! "enum" = Some sidebar_enum)
    by (vm_compute; reflexivity).
  assert (Hr : ["Volatile"; EmptyString] ∈ sidebar_enum)
    by (do 2 right; left).
  split; [exact Hrs |]. split; [exact Hr |].
  exact (proj2 sidebar_records_shape "enum" sidebar_enum
               ["Volatile"; EmptyString] Hrs Hr).
Defined.

(** ** Which [StageDef<T>] serialize *)

Lemma implements_StageDef_unfold (foreign : ty → bool) (T : ty) :
  implements foreign (StageDef T) =
  existsb (entry_covers "martian::stage::StageDef" [implements foreign T])
          martian_list.
Proof. reflexivity. Qed.

(** C4, as stated, fails: [StageMro] is a struct of the crate, listed
    in the sidebar index, with no entry in the table, and [StageDef<StageMro>] is given no
    implementation, even when every type of every other crate is taken
    to implement [Serialize]. *)
Lemma StageDef_of_StageMro_not_Serialize :
  (∃ doc : string, ["StageMro"; doc] ∈ sidebar_struct) ∧
  implements (λ _, true) (Ty "martian::mro::StageMro" []) = false ∧
  implements (λ _, true) (StageDef (Ty "martian::mro::StageMro" [])) = false.
Proof.
  split; [eexists; do 4 right; left |].
  split; vm_compute; reflexivity.
Qed.

(** C4, amended: the table records one implementation for [StageDef],
    [impl<T> Serialize for StageDef<T> where T: Serialize], so
    [StageDef<T>] has a [Serialize] implementation exactly when [T] has
    one. *)
Theorem StageDef_Serialize_when_argument_is
    (foreign : ty → bool) (T : ty) :
  read_header (text impl_StageDef)
  = Some (ImplHeader ["T"] Serialize_path "StageDef" ["T"]
                     [("T", Serialize_path)]) ∧
  implements foreign (StageDef T) = implements foreign T.
Proof.
  split; [vm_compute; reflexivity |].
  rewrite implements_StageDef_unfold.
  destruct (implements foreign T); vm_compute; reflexivity.
Qed.

(** ** The implementors script *)






(** ** Both files *)

(** C6, as stated, fails: run on an empty window the implementors
    script changes the window, and on a window with a
    [register_implementors] function it takes its other branch. *)
Lemma implementors_script_branches_and_writes :
  let tbl := VImplementors implementors in
  (implementors_script idle ∅).1 = [Assign "pending_implementors" tbl] ∧
  final_window (implementors_script idle ∅).2 ≠ ∅ ∧
  (implementors_script idle {[ "register_implementors" := VFunction 0 ]}).1
  = [Call 0 [tbl]].
Proof.
  cbv zeta. split; [reflexivity |]. split; [| reflexivity].
  cbn. apply insert_non_empty.
Qed.

(** With no lexical declaration in the way, the sidebar file is
    [sidebar_script]. *)
Lemma sidebar_file_without_declarations
    (host : nat → list value → window → completion) (w : window) :
  sidebar_file host ∅ w = sidebar_script host w.
Proof. unfold sidebar_file, sidebar_script, binding. by rewrite lookup_empty. Qed.

(** C6, amended: executing the supplied files does nothing but hand
    constant metadata to the page, and it does branch and change state.
    On every window of plain data properties the implementors script
    makes one test, of the truthiness of [window.register_implementors]:
    where the value is a function its one action is the call of that
    function with the table, and it ends as that call ends; where it is
    truthy but no function it does nothing and raises [TypeError];
    where it is falsy its one action is the assignment of the table to
    [window.pending_implementors]. What it does depends on the window
    through that value only. The sidebar file makes no test: its one
    action is the call of what the identifier [initSidebarItems] is
    bound to, a lexical declaration before a property of [window], with
    the index, and it ends as that call ends; bound to something that
    is no function it does nothing and raises [TypeError], unbound it
    does nothing and raises [ReferenceError]. *)
Theorem scripts_only_deliver_metadata
    (host : nat → list value → window → completion)
    (lexical : declarations) (w : window) :
  let f := get w "register_implementors" in
  let tbl := VImplementors implementors in
  let idx := VSidebar sidebar_items in
  ((∀ fn, f = VFunction fn →
      implementors_script host w = ([Call fn [tbl]], host fn [tbl] w)) ∧
   (to_boolean f = true → (∀ fn, f ≠ VFunction fn) →
      implementors_script host w = ([], Throw TypeError w)) ∧
   (to_boolean f = false →
      implementors_script host w
      = ([Assign "pending_implementors" tbl],
         Normal (<["pending_implementors" := tbl]> w))) ∧
   (∀ w' : window,
      get w' "register_implementors" = f →
      (implementors_script host w').1 = (implementors_script host w).1)) ∧
  ((∀ fn, binding lexical w "initSidebarItems" = Some (VFunction fn) →
      sidebar_file host lexical w = ([Call fn [idx]], host fn [idx] w)) ∧
   (∀ v, binding lexical w "initSidebarItems" = Some v →
      (∀ fn, v ≠ VFunction fn) →
      sidebar_file host lexical w = ([], Throw TypeError w)) ∧
   (binding lexical w "initSidebarItems" = None →
      sidebar_file host lexical w = ([], Throw ReferenceError w))).
Proof.
  cbv zeta. split.
  - split; [| split; [| split]].
    + intros fn Hf. unfold implementors_script. by rewrite Hf.
    + intros Ht Hnf. unfold implementors_script. rewrite Ht.
      destruct (get w "register_implementors"); try reflexivity.
      by destruct (Hnf f).
    + intros Hff. unfold implementors_script. by rewrite Hff.
    + intros w' Heq. unfold implementors_script. rewrite Heq.
      destruct (get w "register_implementors") as [| |[]|[|z]|[|c s]|fn|o|t|t];
        cbn [to_boolean]; try reflexivity.
      destruct (negb (z =? 0)%Z); reflexivity.
  - unfold sidebar_file. split; [| split].
    + intros fn Hb. by rewrite Hb.
    + intros v Hb Hnf. rewrite Hb.
      destruct v; try reflexivity. by destruct (Hnf f).
    + intros Hb. by rewrite Hb.
Qed.



Lemma scripts_only_deliver_metadata_witness :
  let w : window := {[ "register_implementors" := VFunction 7;
                       "initSidebarItems" := VNumber (Num 1) ]} in
  let lexical : declarations := {[ "initSidebarItems" := Some (VFunction 3) ]} in
  implementors_script idle w
  = ([Call 7 [VImplementors implementors]],
     idle 7 [VImplementors implementors] w) ∧
  implementors_script idle ∅
  = ([Assign "pending_implementors" (VImplementors implementors)],
     Normal (<["pending_implementors" := VImplementors implementors]> ∅)) ∧
  sidebar_file idle lexical w
  = ([Call 3 [VSidebar sidebar_items]], idle 3 [VSidebar sidebar_items] w) ∧
  sidebar_file idle ∅ w = ([], Throw TypeError w) ∧
  sidebar_file idle ∅ ∅ = ([], Throw ReferenceError ∅).
Proof.
  cbv zeta.
  set (w := ({[ "register_implementors" := VFunction 7;
                "initSidebarItems" := VNumber (Num 1) ]} : window)).
  set (lexical := ({[ "initSidebarItems" := Some (VFunction 3) ]}
                   : declarations)).
  split; [| split; [| split; [| split]]].
  - exact (proj1 (proj1 (scripts_only_deliver_metadata idle lexical w))
             7 eq_refl).
  - exact (proj1 (proj2 (proj2 (proj1
             (scripts_only_deliver_metadata idle ∅ ∅)))) eq_refl).
  - exact (proj1 (proj2 (scripts_only_deliver_metadata idle lexical w))
             3 eq_refl).
  - refine (proj1 (proj2 (proj2 (scripts_only_deliver_metadata idle ∅ w)))
              (VNumber (Num 1)) eq_refl _).
    intros fn. discriminate.
  - exact (proj2 (proj2 (proj2 (scripts_only_deliver_metadata idle ∅ ∅)))
             eq_refl).
Defined.

(** The branches on concrete pages. *)
Example script_with_registered_callback :
  let w : window := {[ "register_implementors" := VFunction 7 ]} in
  implementors_script idle w
  = ([Call 7 [VImplementors implementors]], Normal w).
Proof. reflexivity. Qed.

Example script_without_callback :
  implementors_script idle ∅
  = ([Assign "pending_implementors" (VImplementors implementors)],
     Normal {[ "pending_implementors" := VImplementors implementors ]}).
Proof. reflexivity. Qed.

Example sidebar_without_page :
  sidebar_script idle ∅ = ([], Throw ReferenceError ∅).
Proof. reflexivity. Qed.

(** * Further properties *)

(** ** The tables as a whole *)

(** X1: the table has exactly the two crates [martian] and
    [serde_json]; the [serde_json] list has three entries, for
    [Map<String, Value>], [Value] and [Number], none of them generic
    and none with a where clause. *)
Theorem serde_json_Serialize_implementors :
  dom implementors = ({[ "martian"; "serde_json" ]} : gset string) ∧
  implementors !! "serde_json" = Some serde_json_list ∧
  mapM (λ e, (λ h, (generics h, self_name h,
                    mapM read_self_name (self_args h), bounds h))
               <$> read_header (text e)) serde_json_list
  = Some [ ([], "Map", Some ["String"; "Value"], []);
           ([], "Value", Some [], []);
           ([], "Number", Some [], []) ].
Proof.
  split; [| split].
  - unfold implementors. rewrite !dom_insert_L, dom_empty_L. set_solver.
  - apply implementors_lookup. by right.
  - vm_compute. reflexivity.
Qed.

(** X2: whatever the crate, an entry of its list is not synthetic,
    names exactly one type, that type belongs to the crate the entry is
    filed under, and the name printed in the text is the last segment
    of the type's path. *)
Theorem entries_filed_under_their_crate
    (crate : string) (l : list implementor) (e : implementor) :
  implementors !! crate = Some l →
  e ∈ l →
  synthetic e = false ∧
  ∃ path : string,
    types e = [path] ∧
    crate_of path = crate ∧
    self_name <$> read_header (text e) = Some (last_segment path).
Proof.
  intros Hl He.
  apply implementors_lookup in Hl as [[-> ->] | [-> ->]].
  - unfold martian_list in He.
    repeat (apply elem_of_cons in He as [-> | He]);
      [ .. | by apply elem_of_nil in He ];
      (split; [reflexivity |]); eexists; (split; [reflexivity |]);
      split; vm_compute; reflexivity.
  - unfold serde_json_list in He.
    repeat (apply elem_of_cons in He as [-> | He]);
      [ .. | by apply elem_of_nil in He ];
      (split; [reflexivity |]); eexists; (split; [reflexivity |]);
      split; vm_compute; reflexivity.
Qed.

Lemma entries_filed_under_their_crate_witness :
  implementors !! "martian" = Some martian_list ∧
  impl_Resource ∈ martian_list ∧
  synthetic impl_Resource = false ∧
  ∃ path : string,
    types impl_Resource = [path] ∧
    crate_of path = "martian" ∧
    self_name <$> read_header (text impl_Resource)
    = Some (last_segment path).
Proof.
  assert (Hl : implementors !! "martian" = Some martian_list)
    by (vm_compute; reflexivity).
  assert (He : impl_Resource ∈ martian_list) by (right; left).
  split; [exact Hl |]. split; [exact He |].
  exact (entries_filed_under_their_crate
           "martian" martian_list impl_Resource Hl He).
Defined.

(** X3: the table has eleven entries in all, and no type path is named
    by two of them. *)
Theorem types_listed_once :
  length all_entries = 11 ∧
  NoDup (concat (types <$> all_entries)).
Proof.
  split; [vm_compute; reflexivity |].
  apply (bool_decide_unpack _). vm_compute. reflexivity.
Qed.

(** X4: in every category of the sidebar index the item names are in
    strictly increasing order, and no name occurs twice in the index,
    be it in one category or in two. *)
Theorem sidebar_names_sorted_and_unique :
  (∀ (tag : string) (rs : list (list string)),
     sidebar_items !! tag = Some rs → strictly_sorted (names rs) = true) ∧
  length all_names = 14 ∧
  NoDup all_names.
Proof.
  split; [| split].
  - intros tag rs Hrs.
    apply sidebar_items_lookup in Hrs
      as [[-> ->] | [[-> ->] | [[-> ->] | [-> ->]]]];
      vm_compute; reflexivity.
  - vm_compute. reflexivity.
  - apply (bool_decide_unpack _). vm_compute. reflexivity.
Qed.

Lemma sidebar_names_sorted_and_unique_witness :
  sidebar_items !! "trait" = Some sidebar_trait ∧
  strictly_sorted (names sidebar_trait) = true.
Proof.
  assert (Hrs : sidebar_items !! "trait" = Some sidebar_trait)
    by (vm_compute; reflexivity).
  split; [exact Hrs |].
  exact (proj1 sidebar_names_sorted_and_unique "trait" sidebar_trait Hrs).
Defined.

(** X5: the two files agree: every entry of the [martian] list whose
    type lives in the module [martian::mro] is an item of the sidebar
    index, filed under the kind ([struct] or [enum]) of the link in the
    entry's text. *)
Theorem mro_implementors_in_sidebar (e : implementor) (path : string) :
  e ∈ martian_list →
  types e = [path] →
  module_of path = "martian::mro" →
  ∃ (kind : string) (rs : list (list string)) (doc : string),
    read_self_kind (text e) = Some kind ∧
    sidebar_items !! kind = Some rs ∧
    [last_segment path; doc] ∈ rs.
Proof.
  intros He Hp Hm. unfold martian_list in He.
  repeat (apply elem_of_cons in He as [-> | He]);
    [ .. | by apply elem_of_nil in He ];
    cbn [types] in Hp; injection Hp as <-;
    try (vm_compute in Hm; discriminate Hm).
  - exists "enum", sidebar_enum. eexists.
    split; [vm_compute; reflexivity |].
    split; [vm_compute; reflexivity |]. right; left.
  - exists "enum", sidebar_enum. eexists.
    split; [vm_compute; reflexivity |].
    split; [vm_compute; reflexivity |]. left.
  - exists "struct", sidebar_struct. eexists.
    split; [vm_compute; reflexivity |].
    split; [vm_compute; reflexivity |]. do 2 right; left.
  - exists "enum", sidebar_enum. eexists.
    split; [vm_compute; reflexivity |].
    split; [vm_compute; reflexivity |]. do 2 right; left.
  - exists "struct", sidebar_struct. eexists.
    split; [vm_compute; reflexivity |].
    split; [vm_compute; reflexivity |]. do 3 right; left.
Qed.

Lemma mro_implementors_in_sidebar_witness :
  impl_Volatile ∈ martian_list ∧
  types impl_Volatile = ["martian::mro::Volatile"] ∧
  module_of "martian::mro::Volatile" = "martian::mro" ∧
  ∃ (kind : string) (rs : list (list string)) (doc : string),
    read_self_kind (text impl_Volatile) = Some kind ∧
    sidebar_items !! kind = Some rs ∧
    [last_segment "martian::mro::Volatile"; doc] ∈ rs.
Proof.
  assert (He : impl_Volatile ∈ martian_list) by (do 6 right; left).
  assert (Hm : module_of "martian::mro::Volatile" = "martian::mro")
    by (vm_compute; reflexivity).
  split; [exact He |]. split; [reflexivity |]. split; [exact Hm |].
  exact (mro_implementors_in_sidebar
           impl_Volatile "martian::mro::Volatile" He eq_refl Hm).
Defined.

(** ** Running the scripts on a page *)



(** *** With property attributes *)

Import Page.

Lemma get_prop_plain
    (host : nat → list value → page → result value)
    (pg : page) (p : string) (v : value) :
  plain_value pg p = Some v →
  get_prop host p pg = ([Read p], Return v pg).
Proof.
  unfold plain_value, get_prop.
  destruct (find pg p) as [[v' wr | [g|] st] |]; intros [= <-]; reflexivity.
Qed.

Lemma can_store_no_setter (pg : page) (p : string) :
  can_store pg p = true → setter_of pg p = None.
Proof.
  unfold can_store, setter_of, find.
  destruct (own pg !! p) as [[]|]; try done.
  destruct (inherited pg !! p) as [[]|]; done.
Qed.

(** The file on a page whose [register_implementors] is a plain value:
    after the first read, one of three continuations. *)
Lemma implementors_file_plain
    (host : nat → list value → page → result value)
    (pg : page) (v : value) :
  plain_value pg "register_implementors" = Some v →
  implementors_file host pg
  = if to_boolean v
    then match v with
         | VFunction fn =>
             ([Read "register_implementors"; Read "register_implementors";
               Invoke fn [VImplementors implementors]],
              discard (host fn [VImplementors implementors] pg))
         | _ => ([Read "register_implementors"; Read "register_implementors"],
                 Raise TypeError pg)
         end
    else ([Read "register_implementors";
           Write "pending_implementors" (VImplementors implementors)],
          match setter_of pg "pending_implementors" with
          | Some f => discard (host f [VImplementors implementors] pg)
          | None =>
              if can_store pg "pending_implementors"
              then Return tt
                     (store "pending_implementors"
                            (VImplementors implementors) pg)
              else Return tt pg
          end).
Proof.
  intros Hv. unfold implementors_file, bind.
  rewrite (get_prop_plain _ _ _ _ Hv).
  destruct (to_boolean v) eqn:Hb.
  - rewrite (get_prop_plain _ _ _ _ Hv).
    destruct v; cbn; try reflexivity.
    destruct (host f _ pg); reflexivity.
  - reflexivity.
Qed.

(** On a window of plain values the file does what
    [implementors_script] says: a falsy [register_implementors] stores
    the table. *)
Lemma implementors_file_on_plain_window
    (host : nat → list value → page → result value) (w : window) :
  to_boolean (get w "register_implementors") = false →
  implementors_file host (plain w)
  = ([Read "register_implementors";
      Write "pending_implementors" (VImplementors implementors)],
     Return tt
       (plain (<["pending_implementors" := VImplementors implementors]> w))).
Proof.
  intros Hf.
  assert (Hv : plain_value (plain w) "register_implementors"
               = Some (get w "register_implementors")).
  { unfold plain_value, find, plain, get. cbn. rewrite lookup_fmap.
    by destruct (w !! "register_implementors"). }
  rewrite (implementors_file_plain _ _ _ Hv), Hf.
  assert (Hs : can_store (plain w) "pending_implementors" = true).
  { unfold can_store, plain. cbn. rewrite lookup_fmap.
    by destruct (w !! "pending_implementors"). }
  rewrite (can_store_no_setter _ _ Hs), Hs.
  do 2 f_equal. unfold store, plain. cbn. by rewrite fmap_insert.
Qed.

(** X8: when [window.register_implementors] is a plain falsy value and
    [window.pending_implementors] can take a value, the script reads
    the first, writes the second and completes normally, and
    [pending_implementors] then reads back as the table, which passes
    an [if] test, whatever the property held before. *)
Theorem pending_implementors_reads_back
    (host : nat → list value → page → result value)
    (pg : page) (v : value) :
  plain_value pg "register_implementors" = Some v →
  to_boolean v = false →
  can_store pg "pending_implementors" = true →
  let tbl := VImplementors implementors in
  let pg1 := store "pending_implementors" tbl pg in
  implementors_file host pg
  = ([Read "register_implementors"; Write "pending_implementors" tbl],
     Return tt pg1) ∧
  plain_value pg1 "pending_implementors" = Some tbl ∧
  to_boolean tbl = true.
Proof.
  intros Hv Hf Hs. cbv zeta.
  rewrite (implementors_file_plain _ _ _ Hv), Hf.
  rewrite (can_store_no_setter _ _ Hs), Hs.
  split; [reflexivity |]. split; [| reflexivity].
  unfold plain_value, find, store. cbn. by rewrite lookup_insert_eq.
Qed.

Lemma pending_implementors_reads_back_witness :
  let tbl := VImplementors implementors in
  let pg1 := store "pending_implementors" tbl stale_page in
  plain_value stale_page "register_implementors" = Some VUndefined ∧
  can_store stale_page "pending_implementors" = true ∧
  implementors_file idle_page stale_page
  = ([Read "register_implementors"; Write "pending_implementors" tbl],
     Return tt pg1) ∧
  plain_value pg1 "pending_implementors" = Some tbl ∧
  to_boolean tbl = true.
Proof.
  cbv zeta. split; [reflexivity |]. split; [reflexivity |].
  exact (pending_implementors_reads_back idle_page stale_page VUndefined
           eq_refl eq_refl eq_refl).
Defined.

(** X10: with [window.register_implementors] a plain value, the script
    ends abruptly for one of three reasons and no other: the value is
    truthy but no function, the error being [TypeError] with nothing
    called and the page untouched; the callback itself ended abruptly;
    or the value is falsy and the write to
    [window.pending_implementors] ran a setter that ended abruptly. In
    the last two cases the error and the page are the ones the
    function left. *)
Theorem implementors_file_failure_causes
    (host : nat → list value → page → result value)
    (pg pg' : page) (v : value) (tr : list action) (e : error) :
  plain_value pg "register_implementors" = Some v →
  implementors_file host pg = (tr, Raise e pg') →
  let tbl := VImplementors implementors in
  (to_boolean v = true ∧ (∀ fn, v ≠ VFunction fn) ∧
   e = TypeError ∧ pg' = pg ∧
   tr = [Read "register_implementors"; Read "register_implementors"]) ∨
  (∃ fn, v = VFunction fn ∧
         tr = [Read "register_implementors"; Read "register_implementors";
               Invoke fn [tbl]] ∧
         host fn [tbl] pg = Raise e pg') ∨
  (to_boolean v = false ∧
   ∃ f, setter_of pg "pending_implementors" = Some f ∧
        tr = [Read "register_implementors"; Write "pending_implementors" tbl] ∧
        host f [tbl] pg = Raise e pg').
Proof.
  intros Hv. rewrite (implementors_file_plain _ _ _ Hv). cbv zeta.
  destruct (to_boolean v) eqn:Hb.
  - destruct v as [| |b|n|s|fn|o|t|t]; try discriminate Hb;
      try (intros [= <- <- <-]; left; by repeat split).
    intros [= <- Hr]. right; left. exists fn. repeat split.
    destruct (host fn _ pg); cbn in Hr; [discriminate | by injection Hr as -> ->].
  - destruct (setter_of pg "pending_implementors") as [f|] eqn:Hs.
    + intros [= <- Hr]. right; right. split; [reflexivity |].
      exists f. repeat split.
      destruct (host f _ pg); cbn in Hr; [discriminate | by injection Hr as -> ->].
    + destruct (can_store pg "pending_implementors"); discriminate.
Qed.

Lemma implementors_file_failure_causes_witness :
  let tbl := VImplementors implementors in
  let tr := [Read "register_implementors";
             Write "pending_implementors" tbl] in
  let e := Thrown (VString "refused") in
  plain_value guarded_page "register_implementors" = Some VUndefined ∧
  implementors_file failing_page guarded_page = (tr, Raise e guarded_page) ∧
  ((to_boolean VUndefined = true ∧ (∀ fn, VUndefined ≠ VFunction fn) ∧
    e = TypeError ∧ guarded_page = guarded_page ∧
    tr = [Read "register_implementors"; Read "register_implementors"]) ∨
   (∃ fn, VUndefined = VFunction fn ∧
          tr = [Read "register_implementors"; Read "register_implementors";
                Invoke fn [tbl]] ∧
          failing_page fn [tbl] guarded_page = Raise e guarded_page) ∨
   (to_boolean VUndefined = false ∧
    ∃ f, setter_of guarded_page "pending_implementors" = Some f ∧
         tr = [Read "register_implementors";
               Write "pending_implementors" tbl] ∧
         failing_page f [tbl] guarded_page = Raise e guarded_page)).
Proof.
  cbv zeta. split; [reflexivity |]. split; [reflexivity |].
  exact (implementors_file_failure_causes failing_page
           guarded_page guarded_page VUndefined _ _ eq_refl eq_refl).
Defined.

(** X13: when [window.register_implementors] is a plain falsy value and
    [window.pending_implementors] cannot take a value and has no
    setter, the write is dropped without an error: the script completes
    normally and leaves the page exactly as it was, so the table is
    not handed over. *)
Theorem read_only_pending_implementors_dropped
    (host : nat → list value → page → result value)
    (pg : page) (v : value) :
  plain_value pg "register_implementors" = Some v →
  to_boolean v = false →
  can_store pg "pending_implementors" = false →
  setter_of pg "pending_implementors" = None →
  implementors_file host pg
  = ([Read "register_implementors";
      Write "pending_implementors" (VImplementors implementors)],
     Return tt pg).
Proof.
  intros Hv Hf Hs Hn.
  by rewrite (implementors_file_plain _ _ _ Hv), Hf, Hn, Hs.
Qed.

Lemma read_only_pending_implementors_dropped_witness :
  plain_value frozen_page "register_implementors" = Some VUndefined ∧
  can_store frozen_page "pending_implementors" = false ∧
  setter_of frozen_page "pending_implementors" = None ∧
  implementors_file idle_page frozen_page
  = ([Read "register_implementors";
      Write "pending_implementors" (VImplementors implementors)],
     Return tt frozen_page) ∧
  plain_value frozen_page "pending_implementors" = Some (VString "stale").
Proof.
  split; [reflexivity |]. split; [reflexivity |]. split; [reflexivity |].
  split; [| reflexivity].
  exact (read_only_pending_implementors_dropped idle_page frozen_page
           VUndefined eq_refl eq_refl eq_refl eq_refl).
Defined.





(** An element of the document named [register_implementors] shows up
    as a property of [window] that is an object: the script takes the
    first branch and the call raises [TypeError]. *)
Example implementors_file_on_named_element :
  implementors_file idle_page element_page
  = ([Read "register_implementors"; Read "register_implementors"],
     Raise TypeError element_page).
Proof. reflexivity. Qed.
